(** * AutoViz client orchestration (static/js/app.js)

    A shallow embedding of the [AutoVizApp] class: the three stored fields
    ([currentData], [currentHeaders], [currentChart]), the part of the page
    the methods read and write, and a log of the effects that leave the
    program (network requests, notifications, plots, downloads).

    Every method is a computation in a small state-and-exception monad, so
    that [try] / [catch] / [finally] of the source are written as such.  An
    [async] method is modelled as run to completion: the reply of the remote
    service is an argument of the method. *)

From stdpp Require Import base strings list gmap pretty.

#[local] Set Warnings "-register-all,-clear-no-such-hyp".
Local Open Scope string_scope.

(** ** Values *)

(** A cell of an uploaded record.  A number is kept as the text that
    [Number::toString] gives for it ([0.5], [1e+21], [-3]): the script never
    computes with a cell, it only tests it with [||] and prints it in a
    template, and both are read off that text. *)
Inductive Scalar :=
  | SNull
  | SBool (b : bool)
  | SNum (text : string)
  | SStr (s : string).

(** A record maps header names to cells; a key that is absent reads as
    [undefined], which is [None] here. *)
Abbreviation Row := (gmap string Scalar).

(** The result of [JSON.parse] on a chart payload. *)
Inductive json :=
  | JNull
  | JBool (b : bool)
  | JNum (n : Z)
  | JStr (s : string)
  | JArr (l : list json)
  | JObj (fields : list (string * json)).

(** JavaScript truthiness, as used by [!x] and [x || y].  The falsy numbers
    are the two zeros, which both print as [0], and [NaN]. *)
Definition scalar_truthy (v : Scalar) : bool :=
  match v with
  | SNull => false
  | SBool b => b
  | SNum text => negb (String.eqb text "0") && negb (String.eqb text "NaN")
  | SStr s => negb (String.eqb s "")
  end.

Definition json_truthy (j : json) : bool :=
  match j with
  | JNull => false
  | JBool b => b
  | JNum n => negb (n =? 0)%Z
  | JStr s => negb (String.eqb s "")
  | JArr _ | JObj _ => true
  end.

Definition string_truthy (s : string) : bool := negb (String.eqb s "").

(** String conversion of a template placeholder [${v}]. *)
Definition scalar_to_string (v : Scalar) : string :=
  match v with
  | SNull => "null"
  | SBool true => "true"
  | SBool false => "false"
  | SNum text => text
  | SStr s => s
  end.

Definition opt_string_to_string (o : option string) : string :=
  match o with
  | None => "undefined"
  | Some s => s
  end.

(** [Array.prototype.join] with separator [sep]. *)
Fixpoint join (sep : string) (l : list string) : string :=
  match l with
  | [] => ""
  | [x] => x
  | x :: rest => x +:+ sep +:+ join sep rest
  end.

(** [Array.prototype.slice(start, end)] for indices that are not negative. *)
Definition slice {A} (start stop : nat) (l : list A) : list A :=
  take (stop - start) (drop start l).

(** Property access [j.key]: a [TypeError] on [null], [undefined] on a value
    that has no such property. *)
Definition find_field (key : string) (fields : list (string * json)) : option json :=
  snd <$> List.find (fun kv => String.eqb (fst kv) key) (rev fields).

Definition get_prop (j : json) (key : string) : string + option json :=
  match j with
  | JNull => inl ("Cannot read properties of null (reading '" +:+ key +:+ "')")
  | JObj fields => inr (find_field key fields)
  | _ => inr None
  end.

(** ** The page *)

Record Button := mkButton {
  disabled : bool;
  textContent : string;
}.

(** A [<select>]: its options as (text, value) and the selected one. *)
Record Select := mkSelect {
  options : list (string * string);
  selectedIndex : option nat;
}.

(** Reading [select.value]: the value of the selected option, else [""]. *)
Definition select_value (s : Select) : string :=
  match selectedIndex s with
  | None => ""
  | Some i =>
      match options s !! i with
      | Some (_, v) => v
      | None => ""
      end
  end.

Fixpoint index_of_value (v : string) (opts : list (string * string)) : option nat :=
  match opts with
  | [] => None
  | (_, v') :: rest =>
      if String.eqb v' v then Some 0 else S <$> index_of_value v rest
  end.

(** Writing [select.value = v]: the first option whose value is [v] becomes
    the selected one; with no such option nothing is selected. *)
Definition select_set_value (v : string) (s : Select) : Select :=
  mkSelect (options s) (index_of_value v (options s)).

(** Assigning the placeholder markup to [select.innerHTML]: one option, of
    empty value, is left and, being the only one, it is the selected one. *)
Definition select_reset : Select :=
  mkSelect [("Select column...", "")] (Some 0).

(** [select.appendChild(new Option(text, value))]. *)
Definition select_append (text value : string) (s : Select) : Select :=
  mkSelect (options s ++ [(text, value)]) (selectedIndex s).

Inductive ButtonId := BrowseBtn | GenerateBtn.

Record Dom := mkDom {
  browse_btn : Button;                (* #browse-btn *)
  generate_btn : Button;              (* #generate-chart *)
  x_axis : Select;                    (* #x-axis *)
  y_axis : Select;                    (* #y-axis *)
  values : gmap string string;        (* [.value] of the other controls, by id *)
  texts : gmap string string;         (* [.textContent] / [.innerHTML], by id *)
  hidden : gset string;               (* ids whose class list holds "hidden" *)
}.

Definition get_button (b : ButtonId) (d : Dom) : Button :=
  match b with
  | BrowseBtn => browse_btn d
  | GenerateBtn => generate_btn d
  end.

Definition set_button (b : ButtonId) (v : Button) (d : Dom) : Dom :=
  match b with
  | BrowseBtn => mkDom v (generate_btn d) (x_axis d) (y_axis d) (values d) (texts d) (hidden d)
  | GenerateBtn => mkDom (browse_btn d) v (x_axis d) (y_axis d) (values d) (texts d) (hidden d)
  end.

Definition set_x_axis (s : Select) (d : Dom) : Dom :=
  mkDom (browse_btn d) (generate_btn d) s (y_axis d) (values d) (texts d) (hidden d).

Definition set_y_axis (s : Select) (d : Dom) : Dom :=
  mkDom (browse_btn d) (generate_btn d) (x_axis d) s (values d) (texts d) (hidden d).

Definition set_value (id v : string) (d : Dom) : Dom :=
  mkDom (browse_btn d) (generate_btn d) (x_axis d) (y_axis d)
        (<[id := v]> (values d)) (texts d) (hidden d).

Definition get_value (id : string) (d : Dom) : string :=
  default "" (values d !! id).

Definition set_text (id v : string) (d : Dom) : Dom :=
  mkDom (browse_btn d) (generate_btn d) (x_axis d) (y_axis d)
        (values d) (<[id := v]> (texts d)) (hidden d).

Definition get_text (id : string) (d : Dom) : string :=
  default "" (texts d !! id).

(** [classList.add("hidden")] and [classList.remove("hidden")]. *)
Definition hide (id : string) (d : Dom) : Dom :=
  mkDom (browse_btn d) (generate_btn d) (x_axis d) (y_axis d)
        (values d) (texts d) ({[id]} ∪ hidden d).

Definition unhide (id : string) (d : Dom) : Dom :=
  mkDom (browse_btn d) (generate_btn d) (x_axis d) (y_axis d)
        (values d) (texts d) (hidden d ∖ {[id]}).

(** ** Stored state, effects, worlds *)

Record App := mkApp {
  currentData : option (list Row);
  currentHeaders : option (list string);
  currentChart : json;                (* [JNull] is JavaScript's [null] *)
}.

Record File := mkFile {
  file_name : string;
  file_size : N;                      (* bytes *)
}.

Record ChartConfig := mkConfig {
  chart_type : string;
  cfg_x_axis : string;
  cfg_y_axis : string;
  color_scheme : string;
  title : string;
}.

Inductive Body :=
  | FormData (file : File)
  | JsonBody (config : ChartConfig)
  | NoBody.

Inductive Event :=
  | Fetch (url method : string) (body : Body)
  | Notify (message type : string)
  | NewPlot (target : string) (data layout : option json)
  | DownloadImage (target format : string) (width height : Z) (filename : string)
  | DownloadBlob (filename : string)
  | Release (b : ButtonId).           (* the function returned by [showLoading] ran *)

Record World := mkWorld {
  app : App;
  dom : Dom;
  log : list Event;
}.

Definition is_fetch (e : Event) : bool :=
  match e with Fetch _ _ _ => true | _ => false end.
Definition is_notify (e : Event) : bool :=
  match e with Notify _ _ => true | _ => false end.
Definition is_error_notify (e : Event) : bool :=
  match e with Notify _ t => String.eqb t "error" | _ => false end.
Definition is_download (e : Event) : bool :=
  match e with DownloadImage _ _ _ _ _ | DownloadBlob _ => true | _ => false end.
Definition is_release (b : ButtonId) (e : Event) : bool :=
  match e, b with
  | Release BrowseBtn, BrowseBtn | Release GenerateBtn, GenerateBtn => true
  | _, _ => false
  end.

Definition count (p : Event -> bool) (l : list Event) : nat :=
  length (List.filter p l).

(** ** Replies of the remote service *)

(** Modelled from the spec: the service is not part of the script; the shape
    of what [POST /upload] answers is the one of the interface description
    ([success], [data], [headers], [column_info], [total_rows] and an
    optional [error]). *)
Record UploadResult := mkUploadResult {
  up_success : bool;
  up_data : list Row;
  up_headers : list string;
  up_column_info : gmap string string;   (* header to [type] *)
  up_total_rows : Z;
  up_error : option string;
}.

(** Modelled from the spec: what [POST /generate_chart] answers; [chart] is
    the chart specification still encoded as text. *)
Record ChartResult := mkChartResult {
  ch_success : bool;
  ch_chart : string;
  ch_error : option string;
}.

(** What [await fetch(...)] followed by [await response.json()] gives. *)
Inductive Fetched (R : Type) :=
  | FetchRejects (message : string)
  | JsonRejects (message : string)
  | Replied (result : R).
Arguments FetchRejects {R} message.
Arguments JsonRejects {R} message.
Arguments Replied {R} result.

(** What [await fetch(...)], [response.ok] and [await response.blob()] give. *)
Inductive Exported :=
  | ExportRejects (message : string)
  | ExportNotOk
  | BlobRejects (message : string)
  | ExportOk.

(** ** Computations: state and exceptions *)

Definition M (A : Type) : Type := World -> (string + A) * World.

Definition ret {A} (a : A) : M A := fun w => (inr a, w).

Definition bind {A B} (m : M A) (k : A -> M B) : M B :=
  fun w =>
    match m w with
    | (inl e, w') => (inl e, w')
    | (inr a, w') => k a w'
    end.

Definition throw {A} (message : string) : M A := fun w => (inl message, w).

Declare Scope prog_scope.
Delimit Scope prog_scope with prog.
Bind Scope prog_scope with M.

Notation "x <- m ;; k" := (bind m (fun x => k))
  (at level 20, m at level 99, k at level 200, only parsing) : prog_scope.
Notation "m ;; k" := (bind m (fun _ => k))
  (at level 100, k at level 200, only parsing, right associativity) : prog_scope.

Local Open Scope prog_scope.

(** [try { body } catch (error) { handler(error.message) } finally { fin }] *)
Definition try_catch_finally (body : M unit) (handler : string -> M unit)
    (fin : M unit) : M unit :=
  fun w =>
    match body w with
    | (inr tt, w1) => fin w1
    | (inl e, w1) =>
        match handler e w1 with
        | (inr tt, w2) => fin w2
        | (inl e', w2) =>
            match fin w2 with
            | (inr tt, w3) => (inl e', w3)
            | (inl e'', w3) => (inl e'', w3)
            end
        end
    end.

Definition get_app : M App := fun w => (inr (app w), w).
Definition get_dom : M Dom := fun w => (inr (dom w), w).

Definition modify_app (f : App -> App) : M unit :=
  fun w => (inr tt, mkWorld (f (app w)) (dom w) (log w)).

Definition modify_dom (f : Dom -> Dom) : M unit :=
  fun w => (inr tt, mkWorld (app w) (f (dom w)) (log w)).

Definition emit (e : Event) : M unit :=
  fun w => (inr tt, mkWorld (app w) (dom w) (log w ++ [e])).

Definition lift_result {A} (r : string + A) : M A :=
  match r with
  | inl e => throw e
  | inr a => ret a
  end.

Fixpoint forEach {A} (l : list A) (f : A -> M unit) : M unit :=
  match l with
  | [] => ret tt
  | x :: rest => f x ;; forEach rest f
  end.

(** The world an action leaves behind. *)
Definition run {A} (m : M A) (w : World) : World := snd (m w).

(** The events an action added to the log of [w]. *)
Definition emitted {A} (m : M A) (w : World) : list Event :=
  drop (length (log w)) (log (run m w)).

(** ** Helpers of the templates *)

(** The double-quote character of the markup templates. *)
Definition dq : string := String (Ascii.ascii_of_nat 34) EmptyString.

(** [(bytes / 1024).toFixed(1)]: the quotient is exact in binary floating
    point, and [toFixed] rounds it to the nearest tenth, the larger one on a
    tie. *)
Definition to_fixed_1_kb (bytes : N) : string :=
  let tenths := ((20 * bytes + 1024) / 2048)%N in
  pretty (tenths / 10)%N +:+ "." +:+ pretty (tenths mod 10)%N.

Definition upper_ascii (c : Ascii.ascii) : Ascii.ascii :=
  let n := Ascii.nat_of_ascii c in
  if (97 <=? n)%nat && (n <=? 122)%nat then Ascii.ascii_of_nat (n - 32) else c.

(** [String.prototype.toUpperCase] on ASCII text. *)
Fixpoint toUpperCase (s : string) : string :=
  match s with
  | EmptyString => EmptyString
  | String c rest => String (upper_ascii c) (toUpperCase rest)
  end.

(** The functions every object inherits from [Object.prototype], by the name
    they are reached under and the name they print. *)
Definition object_prototype_functions : list (string * string) :=
  [("constructor", "Object"); ("hasOwnProperty", "hasOwnProperty");
   ("isPrototypeOf", "isPrototypeOf");
   ("propertyIsEnumerable", "propertyIsEnumerable");
   ("toLocaleString", "toLocaleString"); ("toString", "toString");
   ("valueOf", "valueOf"); ("__defineGetter__", "__defineGetter__");
   ("__defineSetter__", "__defineSetter__");
   ("__lookupGetter__", "__lookupGetter__");
   ("__lookupSetter__", "__lookupSetter__")].

(** What [row[h]] evaluates to: the record's own value, else what the
    record inherits under that name (printed as V8 prints it: a native
    function, or the prototype object itself for [__proto__]), else
    [undefined]. *)
Inductive Member :=
  | Own (v : Scalar)
  | Inherited (text : string)
  | Undefined.

Definition inherited_text (h : string) : option string :=
  if String.eqb h "__proto__" then Some "[object Object]"
  else
    match List.find (fun kv => String.eqb (fst kv) h) object_prototype_functions with
    | Some (_, printed) => Some ("function " +:+ printed +:+ "() { [native code] }")
    | None => None
    end.

Definition member (row : Row) (h : string) : Member :=
  match row !! h with
  | Some v => Own v
  | None =>
      match inherited_text h with
      | Some text => Inherited text
      | None => Undefined
      end
  end.

Definition member_truthy (m : Member) : bool :=
  match m with
  | Own v => scalar_truthy v
  | Inherited _ => true
  | Undefined => false
  end.

Definition member_to_string (m : Member) : string :=
  match m with
  | Own v => scalar_to_string v
  | Inherited text => text
  | Undefined => "undefined"
  end.

(** The text of one preview cell: [row[h] || ""], as the template prints it. *)
Definition cell_text (row : Row) (h : string) : string :=
  if member_truthy (member row h) then member_to_string (member row h) else "".

Definition th_html (h : string) : string :=
  "<th class=" +:+ dq +:+ "px-4 py-2 text-left font-medium text-gray-700 border-b"
    +:+ dq +:+ ">" +:+ h +:+ "</th>".

Definition td_html (row : Row) (h : string) : string :=
  "<td class=" +:+ dq +:+ "px-4 py-2 border-b text-gray-600" +:+ dq +:+ ">"
    +:+ cell_text row h +:+ "</td>".

Definition tr_html (headers : list string) (row : Row) : string :=
  "<tr class=" +:+ dq +:+ "hover:bg-gray-50" +:+ dq +:+ ">"
    +:+ join "" (map (td_html row) headers) +:+ "</tr>".

(** The rows of the preview table, before they are joined into the markup of
    [#table-body]. *)
Definition preview_rows (data : list Row) (headers : list string) : list string :=
  map (tr_html headers) (slice 0 10 data).

(** ** The program *)

Section AutoVizApp.

(** [JSON.parse]: the parsed value, or the message of the [SyntaxError]. *)
Variable JSON_parse : string -> string + json.

(** The function [showLoading] returns; [Release] records that it ran. *)
Definition hideLoading (btn : ButtonId) : M unit :=
  modify_dom (fun d => set_button btn (mkButton false (textContent (get_button btn d))) d) ;;
  modify_dom (fun d => set_button btn (mkButton (disabled (get_button btn d)) "Browse") d) ;;
  emit (Release btn).

Definition showLoading (btn : ButtonId) : M (M unit) :=
  modify_dom (fun d => set_button btn (mkButton true (textContent (get_button btn d))) d) ;;
  modify_dom (fun d => set_button btn (mkButton (disabled (get_button btn d)) "Loading...") d) ;;
  ret (hideLoading btn).

(** The banner is appended to the body and removed three seconds later; the
    log keeps the call. *)
Definition showNotification (message type : string) : M unit :=
  emit (Notify message type).

Definition fetch_json {R} (url method : string) (body : Body) (reply : Fetched R) : M R :=
  emit (Fetch url method body) ;;
  match reply with
  | FetchRejects e => throw e
  | JsonRejects e => throw e
  | Replied result => ret result
  end.

Definition showFileInfo (file : File) (totalRows : Z) : M unit :=
  modify_dom (set_text "file-name" (file_name file)) ;;
  modify_dom (set_text "file-size"
    (to_fixed_1_kb (file_size file) +:+ " KB â€¢ " +:+ pretty totalRows +:+ " rows")) ;;
  modify_dom (unhide "file-info") ;;
  modify_dom (unhide "chart-config") ;;
  modify_dom (unhide "export-options").

Definition populateColumnSelectors (headers : list string)
    (columnInfo : gmap string string) : M unit :=
  modify_dom (set_x_axis select_reset) ;;
  modify_dom (set_y_axis select_reset) ;;
  forEach headers (fun header =>
    modify_dom (fun d => set_x_axis (select_append header header (x_axis d)) d) ;;
    modify_dom (fun d => set_y_axis (select_append header header (y_axis d)) d)) ;;
  if (2 <=? length headers)%nat then
    (* [headers[0]] and [headers[1]] exist here; an absent element would be
       written as the text of [undefined] *)
    modify_dom (fun d =>
      set_x_axis (select_set_value (opt_string_to_string (headers !! 0%nat)) (x_axis d)) d) ;;
    modify_dom (fun d =>
      set_y_axis (select_set_value (opt_string_to_string (headers !! 1%nat)) (y_axis d)) d)
  else ret tt.

(** [Object.values(column_info).filter(col => col.type === kind).length] *)
Definition count_columns (kind : string) (column_info : gmap string string) : nat :=
  length (List.filter (fun type => String.eqb type kind) (snd <$> map_to_list column_info)).

Definition showDataStats (result : UploadResult) : M unit :=
  modify_dom (set_text "total-rows" (pretty (up_total_rows result))) ;;
  modify_dom (set_text "total-columns" (pretty (length (up_headers result)))) ;;
  let numericCols := count_columns "numeric" (up_column_info result) in
  let categoricalCols := count_columns "categorical" (up_column_info result) in
  modify_dom (set_text "numeric-columns" (pretty numericCols)) ;;
  modify_dom (set_text "categorical-columns" (pretty categoricalCols)) ;;
  modify_dom (unhide "data-stats").

Definition showDataPreview (data : list Row) (headers : list string) : M unit :=
  modify_dom (set_text "table-header"
    ("<tr>" +:+ join "" (map th_html headers) +:+ "</tr>")) ;;
  modify_dom (set_text "table-body" (join "" (preview_rows data headers))) ;;
  modify_dom (unhide "data-preview") ;;
  modify_dom (hide "welcome-screen").

Definition handleFileUpload (file : option File) (reply : Fetched UploadResult) : M unit :=
  match file with
  | None => ret tt
  | Some f =>
      hideLoading <- showLoading BrowseBtn ;;
      try_catch_finally
        (result <- fetch_json "/upload" "POST" (FormData f) reply ;;
         if up_success result then
           modify_app (fun a => mkApp (Some (up_data result)) (currentHeaders a) (currentChart a)) ;;
           modify_app (fun a => mkApp (currentData a) (Some (up_headers result)) (currentChart a)) ;;
           showFileInfo f (up_total_rows result) ;;
           populateColumnSelectors (up_headers result) (up_column_info result) ;;
           showDataStats result ;;
           showDataPreview (up_data result) (up_headers result) ;;
           showNotification "File uploaded successfully!" "success"
         else
           showNotification (opt_string_to_string (up_error result)) "error")
        (fun message => showNotification ("Upload failed: " +:+ message) "error")
        hideLoading
  end.

Definition generateChart (reply : Fetched ChartResult) : M unit :=
  d <- get_dom ;;
  let config := mkConfig (get_value "chart-type" d) (select_value (x_axis d))
                  (select_value (y_axis d)) (get_value "color-scheme" d)
                  (get_value "chart-title" d) in
  if negb (string_truthy (cfg_x_axis config)) then
    showNotification "Please select X-axis column" "error"
  else
    hideLoading <- showLoading GenerateBtn ;;
    try_catch_finally
      (result <- fetch_json "/generate_chart" "POST" (JsonBody config) reply ;;
       if ch_success result then
         chart <- lift_result (JSON_parse (ch_chart result)) ;;
         modify_app (fun a => mkApp (currentData a) (currentHeaders a) chart) ;;
         a <- get_app ;;
         data <- lift_result (get_prop (currentChart a) "data") ;;
         layout <- lift_result (get_prop (currentChart a) "layout") ;;
         emit (NewPlot "plotly-chart" data layout) ;;
         modify_dom (unhide "chart-container") ;;
         modify_dom (hide "welcome-screen") ;;
         showNotification "Chart generated successfully!" "success"
       else
         showNotification (opt_string_to_string (ch_error result)) "error")
      (fun message => showNotification ("Chart generation failed: " +:+ message) "error")
      hideLoading.

Definition exportChart (format : string) : M unit :=
  a <- get_app ;;
  if negb (json_truthy (currentChart a)) then
    showNotification "No chart to export" "error"
  else if String.eqb format "png" then
    d <- get_dom ;;
    let chart_title := get_value "chart-title" d in
    emit (DownloadImage "plotly-chart" "png" 1200 800
            (if string_truthy chart_title then chart_title else "chart")) ;;
    showNotification "Chart exported as PNG" "success"
  else ret tt.

Definition exportData (format : string) (reply : Exported) : M unit :=
  a <- get_app ;;
  match currentData a with
  | None => showNotification "No data to export" "error"
  | Some _ =>
      try_catch_finally
        (emit (Fetch ("/export_data/" +:+ format) "GET" NoBody) ;;
         match reply with
         | ExportRejects e => throw e
         | ExportNotOk => showNotification "Export failed" "error"
         | BlobRejects e => throw e
         | ExportOk =>
             emit (DownloadBlob ("autoviz_data." +:+ format)) ;;
             showNotification ("Data exported as " +:+ toUpperCase format) "success"
         end)
        (fun message => showNotification ("Export failed: " +:+ message) "error")
        (ret tt)
  end.

Definition resetApp : M unit :=
  modify_app (fun a => mkApp None (currentHeaders a) (currentChart a)) ;;
  modify_app (fun a => mkApp (currentData a) None (currentChart a)) ;;
  modify_app (fun a => mkApp (currentData a) (currentHeaders a) JNull) ;;
  modify_dom (hide "file-info") ;;
  modify_dom (hide "chart-config") ;;
  modify_dom (hide "export-options") ;;
  modify_dom (hide "data-stats") ;;
  modify_dom (hide "data-preview") ;;
  modify_dom (hide "chart-container") ;;
  modify_dom (unhide "welcome-screen") ;;
  modify_dom (set_value "file-input" "").

(** The listeners that [initializeEventListeners] installs, as the actions
    they start. *)
Inductive Action :=
  | FileChosen (file : option File) (reply : Fetched UploadResult)
  | FileDropped (file : option File) (reply : Fetched UploadResult)
  | RemoveFile
  | GenerateChart (reply : Fetched ChartResult)
  | ExportPng
  | ExportCsv (reply : Exported)
  | ExportJson (reply : Exported).

Definition dispatch (act : Action) : M unit :=
  match act with
  | FileChosen file reply => handleFileUpload file reply
  | FileDropped file reply => handleFileUpload file reply
  | RemoveFile => resetApp
  | GenerateChart reply => generateChart reply
  | ExportPng => exportChart "png"
  | ExportCsv reply => exportData "csv" reply
  | ExportJson reply => exportData "json" reply
  end.

Fixpoint dispatch_all (acts : list Action) : M unit :=
  match acts with
  | [] => ret tt
  | act :: rest => fun w => dispatch_all rest (run (dispatch act) w)
  end.

End AutoVizApp.

(** The fields as the constructor leaves them. *)
Definition initial_app : App := mkApp None None JNull.

(** ** A concrete page and service, to run the program on *)

(** A parser that knows three payloads; every other text is a syntax error. *)
Definition sample_parse (s : string) : string + json :=
  if String.eqb s "{}" then inr (JObj [])
  else if String.eqb s "null" then inr JNull
  else if String.eqb s "0" then inr (JNum 0)
  else inl "Unexpected token".

(** The page before any action.  Its markup is not among the sources; the
    labels and the initially hidden panels follow the ids the script uses. *)
Definition initial_dom : Dom :=
  mkDom (mkButton false "Browse") (mkButton false "Generate Chart")
        select_reset select_reset
        {[ "chart-type" := "bar"; "color-scheme" := "default"; "chart-title" := "" ]}
        ∅
        {[ "file-info"; "chart-config"; "export-options"; "data-stats";
           "data-preview"; "chart-container" ]}.

Definition initial_world : World := mkWorld initial_app initial_dom [].

Definition sample_file : File := mkFile "sales.csv" 2048.

Definition sample_rows : list Row :=
  [ {[ "A" := SNum "1"; "B" := SNum "0"; "C" := SStr "x" ]};
    {[ "A" := SNum "3"; "B" := SNull; "C" := SStr "" ]} ].

Definition sample_upload : UploadResult :=
  mkUploadResult true sample_rows ["A"; "B"; "C"]
    {[ "A" := "numeric"; "B" := "numeric"; "C" := "categorical" ]} 2 None.

Definition second_file : File := mkFile "stock.csv" 1536.

Definition second_upload : UploadResult :=
  mkUploadResult true [ {[ "P" := SNum "7"; "Q" := SNum "9" ]} ] ["P"; "Q"]
    {[ "P" := "numeric"; "Q" := "numeric" ]} 1 None.

Definition one_header_upload : UploadResult :=
  mkUploadResult true [ {[ "A" := SNum "1" ]} ] ["A"] {[ "A" := "numeric" ]} 1 None.

Definition good_chart_reply : Fetched ChartResult :=
  Replied (mkChartResult true "{}" None).

Definition bad_chart_reply : Fetched ChartResult :=
  Replied (mkChartResult true "{data:" None).

(** The world after one successful upload of [sample_file]. *)
Definition loaded_world : World :=
  run (handleFileUpload (Some sample_file) (Replied sample_upload)) initial_world.

(** ** What [populateColumnSelectors] builds *)

Definition header_options (headers : list string) : list (string * string) :=
  (fun h => (h, h)) <$> headers.

(** The selector left for the axis that defaults to [headers[i]]. *)
Definition populated_select (headers : list string) (i : nat) : Select :=
  let filled := mkSelect (options select_reset ++ header_options headers) (Some 0%nat) in
  if (2 <=? length headers)%nat
  then select_set_value (opt_string_to_string (headers !! i)) filled
  else filled.

(** The configuration [generateChart] reads off the page. *)
Definition page_config (d : Dom) : ChartConfig :=
  mkConfig (get_value "chart-type" d) (select_value (x_axis d))
    (select_value (y_axis d)) (get_value "color-scheme" d)
    (get_value "chart-title" d).

(** The world after that upload and a successful chart generation. *)
Definition rendered_world : World :=
  run (generateChart sample_parse good_chart_reply) loaded_world.

(** The world after that upload and a click on the remove button: no
    dataset is stored, the selectors keep the options and the selection the
    upload gave them. *)
Definition reset_world : World :=
  run (dispatch_all sample_parse
         [FileChosen (Some sample_file) (Replied sample_upload); RemoveFile])
      initial_world.

(** ** Reading the preview back from the page *)





















(** ** Vocabulary of the action-level properties *)

(** The panels that [resetApp] hides. *)
Definition panels : list string :=
  ["file-info"; "chart-config"; "export-options"; "data-stats"; "data-preview";
   "chart-container"].

Definition is_plot (e : Event) : bool :=
  match e with NewPlot _ _ _ => true | _ => false end.

(** The upload reply takes the success branch of [handleFileUpload]. *)
Definition upload_accepted (reply : Fetched UploadResult) : bool :=
  match reply with
  | Replied r => up_success r
  | _ => false
  end.

(** The chart reply takes the success branch of [generateChart]. *)
Definition chart_accepted (reply : Fetched ChartResult) : bool :=
  match reply with
  | Replied r => ch_success r
  | _ => false
  end.

(** The text of the error banner on the other branches. *)
Definition upload_failure_message (reply : Fetched UploadResult) : string :=
  match reply with
  | FetchRejects e | JsonRejects e => "Upload failed: " +:+ e
  | Replied r => opt_string_to_string (up_error r)
  end.

Definition chart_failure_message (reply : Fetched ChartResult) : string :=
  match reply with
  | FetchRejects e | JsonRejects e => "Chart generation failed: " +:+ e
  | Replied r => opt_string_to_string (ch_error r)
  end.

Definition is_export_ok (reply : Exported) : bool :=
  match reply with ExportOk => true | _ => false end.

Definition export_failure_message (reply : Exported) : string :=
  match reply with
  | ExportRejects e | BlobRejects e => "Export failed: " +:+ e
  | _ => "Export failed"
  end.

(** What [chart.key] evaluates to on a chart that is not [null]. *)
Definition chart_prop (chart : json) (key : string) : option json :=
  match get_prop chart key with
  | inr v => v
  | inl _ => None
  end.

(** An action whose reply makes [generateChart] assign [currentChart]. *)
Definition may_set_chart (act : Action) : bool :=
  match act with
  | GenerateChart reply => chart_accepted reply
  | _ => false
  end.

(** [currentData] and [currentHeaders] are both null or both set. *)
Definition paired (a : App) : bool :=
  match currentData a, currentHeaders a with
  | Some _, Some _ | None, None => true
  | _, _ => false
  end.

Definition buttons_enabled (d : Dom) : bool :=
  negb (disabled (browse_btn d)) && negb (disabled (generate_btn d)).

Definition plain_chart_reply : Fetched ChartResult :=
  Replied (mkChartResult false "" (Some "No data uploaded")).

Definition null_chart_reply : Fetched ChartResult :=
  Replied (mkChartResult true "null" None).

(** ** The drag-and-drop listeners of the upload area *)

(** The class list of [#upload-area], as the set of its tokens. *)
Abbreviation ClassList := (gset string).

(** The two classes that mark the area while a file is dragged over it. *)
Definition highlight : ClassList := {[ "border-blue-500"; "bg-blue-50" ]}.

(** [dragover]: [classList.add("border-blue-500", "bg-blue-50")]. *)
Definition on_dragover (classes : ClassList) : ClassList := classes ∪ highlight.

(** [dragleave]: [classList.remove("border-blue-500", "bg-blue-50")]. *)
Definition on_dragleave (classes : ClassList) : ClassList := classes ∖ highlight.

(** [drop]: the same removal, then [handleFileUpload] on the first dropped
    file, which is the action [FileDropped]. *)
Definition on_drop (classes : ClassList) (file : option File)
    (reply : Fetched UploadResult) : ClassList * Action :=
  (classes ∖ highlight, FileDropped file reply).

(** * Properties *)

(** ** Stepping through computations *)

Lemma bind_ok {A B} (m : M A) (k : A -> M B) (w w' : World) (a : A) :
  m w = (inr a, w') -> bind m k w = k a w'.
Proof. intros H. unfold bind. by rewrite H. Qed.

Lemma string_truthy_true (s : string) : s ≠ "" -> string_truthy s = true.
Proof.
  intros H. unfold string_truthy. apply negb_true_iff. by apply String.eqb_neq.
Qed.

Lemma string_truthy_false (s : string) : string_truthy s = false <-> s = "".
Proof.
  unfold string_truthy. rewrite negb_false_iff. apply String.eqb_eq.
Qed.

Lemma drop_log1 (l : list Event) (e1 : Event) :
  drop (length l) (l ++ [e1]) = [e1].
Proof. apply drop_app_length. Qed.

Lemma drop_log2 (l : list Event) (e1 e2 : Event) :
  drop (length l) ((l ++ [e1]) ++ [e2]) = [e1; e2].
Proof. rewrite <- app_assoc. apply drop_app_length. Qed.

Lemma drop_log3 (l : list Event) (e1 e2 e3 : Event) :
  drop (length l) (((l ++ [e1]) ++ [e2]) ++ [e3]) = [e1; e2; e3].
Proof. rewrite <- !app_assoc. apply drop_app_length. Qed.

Lemma drop_log4 (l : list Event) (e1 e2 e3 e4 : Event) :
  drop (length l) ((((l ++ [e1]) ++ [e2]) ++ [e3]) ++ [e4]) = [e1; e2; e3; e4].
Proof. rewrite <- !app_assoc. apply drop_app_length. Qed.

Create Rewrite HintDb logs.
#[local] Hint Rewrite drop_log1 drop_log2 drop_log3 drop_log4 @drop_all : logs.

(** ** The axis selectors *)

Lemma forEach_append_options (headers : list string) (w : World) :
  forEach headers (fun header =>
    bind (modify_dom (fun d => set_x_axis (select_append header header (x_axis d)) d)) (fun _ =>
    modify_dom (fun d => set_y_axis (select_append header header (y_axis d)) d))) w
  = (inr tt,
     mkWorld (app w)
       (mkDom (browse_btn (dom w)) (generate_btn (dom w))
          (mkSelect (options (x_axis (dom w)) ++ header_options headers)
                    (selectedIndex (x_axis (dom w))))
          (mkSelect (options (y_axis (dom w)) ++ header_options headers)
                    (selectedIndex (y_axis (dom w))))
          (values (dom w)) (texts (dom w)) (hidden (dom w)))
       (log w)).
Proof.
  revert w.
  induction headers as [|h rest IH]; intros [a [bb gb [xo xi] [yo yi] v t hd] l].
  - cbn. by rewrite !app_nil_r.
  - cbn. unfold bind at 1. cbn. rewrite IH. cbn. by rewrite <- !app_assoc.
Qed.

Lemma populateColumnSelectors_run headers column_info w :
  populateColumnSelectors headers column_info w
  = (inr tt,
     mkWorld (app w)
       (set_y_axis (populated_select headers 1)
          (set_x_axis (populated_select headers 0) (dom w)))
       (log w)).
Proof.
  unfold populateColumnSelectors, populated_select.
  unfold bind at 1. cbn. unfold bind at 1. cbn. unfold bind at 1.
  rewrite forEach_append_options. cbn.
  destruct headers as [|h0 [|h1 rest]]; reflexivity.
Qed.

Lemma index_of_value_found (v : string) (opts : list (string * string)) :
  (exists t, (t, v) ∈ opts) ->
  exists i t, index_of_value v opts = Some i /\ opts !! i = Some (t, v).
Proof.
  induction opts as [|[t' v'] rest IH]; intros [t Hin].
  - by apply elem_of_nil in Hin.
  - cbn. destruct (String.eqb v' v) eqn:E.
    + apply String.eqb_eq in E as ->. by exists 0%nat, t'.
    + apply elem_of_cons in Hin as [Heq | Hin].
      * injection Heq as -> ->. by rewrite String.eqb_refl in E.
      * destruct IH as (i & t'' & Hi & Hl); [by exists t|].
        exists (S i), t''. by rewrite Hi.
Qed.

Lemma select_set_value_reads_back (v : string) (s : Select) :
  (exists t, (t, v) ∈ options s) -> select_value (select_set_value v s) = v.
Proof.
  intros H. destruct (index_of_value_found v (options s) H) as (i & t & Hi & Hl).
  unfold select_value, select_set_value. cbn. by rewrite Hi, Hl.
Qed.

Lemma populated_select_default (headers : list string) (i : nat) (h : string) :
  2 <= length headers -> headers !! i = Some h ->
  select_value (populated_select headers i) = h.
Proof.
  intros Hlen Hh. unfold populated_select.
  destruct (Nat.leb_spec 2 (length headers)) as [_|?]; [|lia].
  rewrite Hh. cbn [opt_string_to_string].
  apply select_set_value_reads_back. exists h. cbn [options].
  apply elem_of_app. right. unfold header_options.
  apply list_elem_of_fmap. exists h. split; [done|].
  by apply list_elem_of_lookup_2 in Hh.
Qed.

Lemma populated_select_placeholder (headers : list string) (i : nat) :
  length headers < 2 ->
  selectedIndex (populated_select headers i) = Some 0%nat /\
  select_value (populated_select headers i) = "".
Proof.
  intros Hlen. unfold populated_select.
  destruct (Nat.leb_spec 2 (length headers)) as [?|_]; [lia|]. by cbn.
Qed.

(** ** Upload *)

Ltac close_logs := autorewrite with logs; cbn; repeat split; reflexivity.

Ltac upload_success Hs :=
  unfold emitted, run, handleFileUpload, showLoading, try_catch_finally, fetch_json;
  cbn; rewrite Hs; cbn;
  rewrite (bind_ok _ _ _ _ _ (populateColumnSelectors_run _ _ _)); cbn.

(** The success path assigns [currentData] and [currentHeaders] and nothing
    else: [currentChart] keeps the value it had. *)
Lemma upload_success_app (f : File) (r : UploadResult) (w : World) :
  up_success r = true ->
  app (run (handleFileUpload (Some f) (Replied r)) w)
  = mkApp (Some (up_data r)) (Some (up_headers r)) (currentChart (app w)).
Proof. intros Hs. by upload_success Hs. Qed.

(** An upload that was started releases the browse button once, whatever
    the service answers. *)
Lemma upload_releases_once (f : File) (reply : Fetched UploadResult) (w : World) :
  count (is_release BrowseBtn) (emitted (handleFileUpload (Some f) reply) w) = 1%nat
  /\ disabled (browse_btn (dom (run (handleFileUpload (Some f) reply) w))) = false.
Proof.
  destruct reply as [e|e|r]; [| |destruct (up_success r) eqn:Hs].
  - unfold emitted, run. cbn. close_logs.
  - unfold emitted, run. cbn. close_logs.
  - upload_success Hs. close_logs.
  - unfold emitted, run, handleFileUpload, showLoading, try_catch_finally, fetch_json.
    cbn. rewrite Hs. cbn. close_logs.
Qed.

(** C1 (the code at the failing input): a chart is generated for the first
    dataset, then a second file is uploaded successfully; the stored dataset
    is the second one, and the stored chart is still the chart of the first
    one, not null. *)
Theorem stale_chart_survives_upload :
  let w := run (dispatch_all sample_parse
                  [FileChosen (Some sample_file) (Replied sample_upload);
                   GenerateChart good_chart_reply;
                   FileChosen (Some second_file) (Replied second_upload)])
               initial_world in
  currentData (app w) = Some (up_data second_upload)
  /\ currentHeaders (app w) = Some ["P"; "Q"]
  /\ currentChart (app w) = JObj []
  /\ currentChart (app w) ≠ JNull.
Proof. vm_compute. by repeat split. Qed.

(** C3, as stated, fails: an upload without a file shows no error
    notification. *)
Lemma null_upload_is_not_reported :
  ~ (exists message,
       Notify message "error"
         ∈ emitted (handleFileUpload None (Replied sample_upload)) initial_world).
Proof. intros [message H]. vm_compute in H. by apply elem_of_nil in H. Qed.

(** C3 (amended): an upload without a file issues no network call, leaves
    the stored state and the page as they are, and shows no notification at
    all: the method returns at once. *)
Theorem null_upload_is_silent (reply : Fetched UploadResult) (w : World) :
  handleFileUpload None reply w = (inr tt, w)
  /\ app (run (handleFileUpload None reply) w) = app w
  /\ count is_fetch (emitted (handleFileUpload None reply) w) = 0%nat
  /\ count is_notify (emitted (handleFileUpload None reply) w) = 0%nat.
Proof.
  unfold emitted, run. cbn. by rewrite drop_all.
Qed.

(** C6: after a successful upload with two headers or more the X selector
    reads [headers[0]] and the Y selector reads [headers[1]]; with fewer
    headers both selectors stay on the placeholder option, whose value is
    empty. *)
Theorem upload_axis_defaults (f : File) (r : UploadResult) (w : World) :
  up_success r = true ->
  let d' := dom (run (handleFileUpload (Some f) (Replied r)) w) in
  (2 <= length (up_headers r) ->
     Some (select_value (x_axis d')) = up_headers r !! 0%nat /\
     Some (select_value (y_axis d')) = up_headers r !! 1%nat) /\
  (length (up_headers r) < 2 ->
     select_value (x_axis d') = "" /\ select_value (y_axis d') = "" /\
     selectedIndex (x_axis d') = Some 0%nat /\ selectedIndex (y_axis d') = Some 0%nat).
Proof.
  intros Hs. upload_success Hs. split; intros Hlen.
  - destruct (up_headers r) as [|h0 [|h1 rest]] eqn:Hh; cbn in Hlen; try lia.
    rewrite (populated_select_default _ 0 h0), (populated_select_default _ 1 h1);
      cbn; done || lia.
  - destruct (populated_select_placeholder (up_headers r) 0 Hlen) as [-> ->].
    by destruct (populated_select_placeholder (up_headers r) 1 Hlen) as [-> ->].
Qed.

Lemma preview_rows_take (data : list Row) (headers : list string) :
  preview_rows data headers = tr_html headers <$> take 10 data.
Proof. reflexivity. Qed.

Lemma preview_rows_length (data : list Row) (headers : list string) :
  length (preview_rows data headers) = min 10 (length data).
Proof. by rewrite preview_rows_take, length_fmap, length_take. Qed.

Lemma preview_rows_lookup (data : list Row) (headers : list string) (i : nat) :
  i < min 10 (length data) ->
  preview_rows data headers !! i = tr_html headers <$> data !! i.
Proof.
  intros Hi. rewrite preview_rows_take, list_lookup_fmap, lookup_take_lt; [done|lia].
Qed.

(** ** Chart generation *)

Section Generate.

Variable JSON_parse : string -> string + json.

#[local] Arguments string_truthy : simpl never.
#[local] Arguments select_value : simpl never.

Ltac generate_steps Hx :=
  unfold emitted, run, generateChart, showLoading, try_catch_finally, fetch_json;
  cbn; rewrite Hx; cbn.

(** With an empty X axis the method stops after one notification. *)
Lemma generateChart_empty_x (reply : Fetched ChartResult) (w : World) :
  select_value (x_axis (dom w)) = "" ->
  generateChart JSON_parse reply w
  = (inr tt,
     mkWorld (app w) (dom w) (log w ++ [Notify "Please select X-axis column" "error"])).
Proof.
  intros Hx. apply string_truthy_false in Hx.
  unfold generateChart. cbn. rewrite Hx. by destruct w.
Qed.

(** With an X axis selected, the request is the first thing the method
    emits, whatever the stored dataset is. *)
Lemma generateChart_fetches (reply : Fetched ChartResult) (w : World) :
  select_value (x_axis (dom w)) ≠ "" ->
  List.filter is_fetch (emitted (generateChart JSON_parse reply) w)
  = [Fetch "/generate_chart" "POST" (JsonBody (page_config (dom w)))].
Proof.
  intros Hx. apply string_truthy_true in Hx.
  destruct reply as [e|e|r]; [| |destruct (ch_success r) eqn:Hs].
  - generate_steps Hx. close_logs.
  - generate_steps Hx. close_logs.
  - generate_steps Hx. rewrite Hs. cbn.
    destruct (JSON_parse (ch_chart r)) as [e|chart] eqn:Hp; cbn; [close_logs|].
    destruct chart; cbn; close_logs.
  - generate_steps Hx. rewrite Hs. cbn. close_logs.
Qed.

(** A generation that was started releases the generate button once on
    every path, and leaves it enabled with the label [Browse]. *)
Lemma generate_releases_once (reply : Fetched ChartResult) (w : World) :
  select_value (x_axis (dom w)) ≠ "" ->
  count (is_release GenerateBtn) (emitted (generateChart JSON_parse reply) w) = 1%nat
  /\ generate_btn (dom (run (generateChart JSON_parse reply) w)) = mkButton false "Browse".
Proof.
  intros Hx. apply string_truthy_true in Hx.
  destruct reply as [e|e|r]; [| |destruct (ch_success r) eqn:Hs].
  - generate_steps Hx. close_logs.
  - generate_steps Hx. close_logs.
  - generate_steps Hx. rewrite Hs. cbn.
    destruct (JSON_parse (ch_chart r)) as [e|chart] eqn:Hp; cbn; [close_logs|].
    destruct chart; cbn; close_logs.
  - generate_steps Hx. rewrite Hs. cbn. close_logs.
Qed.

(** C4 (amended): with no dataset stored, no chart-generation request is
    issued when the configured X axis is empty; when it is not empty the
    request is issued all the same, carrying the configuration of the page. *)
Theorem generate_without_dataset (reply : Fetched ChartResult) (w : World) :
  currentData (app w) = None ->
  (select_value (x_axis (dom w)) = "" ->
     count is_fetch (emitted (generateChart JSON_parse reply) w) = 0%nat) /\
  (select_value (x_axis (dom w)) ≠ "" ->
     List.filter is_fetch (emitted (generateChart JSON_parse reply) w)
     = [Fetch "/generate_chart" "POST" (JsonBody (page_config (dom w)))]).
Proof.
  intros _. split; intros Hx.
  - unfold emitted, run. rewrite (generateChart_empty_x reply w Hx). cbn. close_logs.
  - by apply generateChart_fetches.
Qed.

(** C5: with an empty X axis, [generateChart] issues no network call, shows
    exactly one notification, an error, and leaves the stored dataset,
    headers and chart (and the page) as they were. *)
Theorem generate_empty_x_axis (reply : Fetched ChartResult) (w : World) :
  select_value (x_axis (dom w)) = "" ->
  let w' := run (generateChart JSON_parse reply) w in
  let new := emitted (generateChart JSON_parse reply) w in
  count is_fetch new = 0%nat
  /\ new = [Notify "Please select X-axis column" "error"]
  /\ count is_notify new = 1%nat /\ count is_error_notify new = 1%nat
  /\ app w' = app w /\ dom w' = dom w.
Proof.
  intros Hx w' new. subst w' new. unfold emitted, run.
  rewrite (generateChart_empty_x reply w Hx). cbn. close_logs.
Qed.

(** C8: when the service answers success with a payload that [JSON.parse]
    rejects, the method still returns normally; the stored state, the chart
    included, is what it was; exactly one notification is shown, an error
    carrying the parser's message; and the generate button is released,
    once. *)
Theorem generate_invalid_payload (r : ChartResult) (w : World) (message : string) :
  select_value (x_axis (dom w)) ≠ "" ->
  ch_success r = true ->
  JSON_parse (ch_chart r) = inl message ->
  let w' := run (generateChart JSON_parse (Replied r)) w in
  let new := emitted (generateChart JSON_parse (Replied r)) w in
  fst (generateChart JSON_parse (Replied r) w) = inr tt
  /\ app w' = app w
  /\ List.filter is_notify new = [Notify ("Chart generation failed: " +:+ message) "error"]
  /\ count is_error_notify new = 1%nat
  /\ count (is_release GenerateBtn) new = 1%nat
  /\ disabled (generate_btn (dom w')) = false.
Proof.
  intros Hx Hs Hp w' new. subst w' new. apply string_truthy_true in Hx.
  generate_steps Hx. rewrite Hs. cbn. rewrite Hp. cbn.
  destruct w as [[data headers chart] d l]. cbn. close_logs.
Qed.

End Generate.

(** C2 (the code at the failing input): one chart generation on a page whose
    generate button is enabled and labelled [Generate Chart].  The release
    function runs once, and it leaves the button enabled, but with the label
    [Browse] instead of the label the button had. *)
Theorem generate_button_label_not_restored :
  let act := generateChart sample_parse good_chart_reply in
  generate_btn (dom loaded_world) = mkButton false "Generate Chart"
  /\ count (is_release GenerateBtn) (emitted act loaded_world) = 1%nat
  /\ generate_btn (dom (run act loaded_world)) = mkButton false "Browse"
  /\ textContent (generate_btn (dom (run act loaded_world)))
     ≠ textContent (generate_btn (dom loaded_world)).
Proof. vm_compute. by repeat split. Qed.

(** C4, as stated, fails: after an upload and a reset no dataset is stored,
    the X selector still reads the first header, and [generateChart] sends
    the request. *)
Lemma generate_without_dataset_calls_service :
  currentData (app reset_world) = None
  /\ List.filter is_fetch (emitted (generateChart sample_parse good_chart_reply) reset_world)
     = [Fetch "/generate_chart" "POST" (JsonBody (mkConfig "bar" "A" "B" "default" ""))]
  /\ count is_fetch (emitted (generateChart sample_parse good_chart_reply) reset_world) ≠ 0%nat.
Proof. vm_compute. by repeat split. Qed.

(** ** Chart export *)

(** C10: while a chart is stored, [exportChart] with a format other than
    [png] changes nothing: no download, no notification, the same world.
    For every format, an error notification is shown exactly when no chart
    is stored. *)
Theorem export_chart_other_format (format : string) (w : World) :
  json_truthy (currentChart (app w)) = true ->
  format ≠ "png" ->
  exportChart format w = (inr tt, w)
  /\ emitted (exportChart format) w = []
  /\ count is_download (emitted (exportChart format) w) = 0%nat
  /\ count is_notify (emitted (exportChart format) w) = 0%nat
  /\ (forall format' w',
        count is_error_notify (emitted (exportChart format') w')
        = if json_truthy (currentChart (app w')) then 0%nat else 1%nat).
Proof.
  intros Hchart Hformat. apply String.eqb_neq in Hformat.
  assert (Hrun : exportChart format w = (inr tt, w)).
  { unfold exportChart. cbn. by rewrite Hchart, Hformat. }
  unfold emitted, run. rewrite Hrun. cbn. rewrite drop_all.
  repeat split. intros format' w'. unfold exportChart. cbn.
  destruct (json_truthy (currentChart (app w'))); cbn; [|close_logs].
  destruct (String.eqb format' "png"); cbn; close_logs.
Qed.

(** ** The theorems at concrete inputs *)

(** [generate_without_dataset] on the initial page (nothing selected) and
    after an upload and a reset (first header still selected). *)
Lemma generate_without_dataset_witness :
  count is_fetch (emitted (generateChart sample_parse good_chart_reply) initial_world) = 0%nat
  /\ List.filter is_fetch (emitted (generateChart sample_parse good_chart_reply) reset_world)
     = [Fetch "/generate_chart" "POST" (JsonBody (page_config (dom reset_world)))].
Proof.
  split.
  - apply (generate_without_dataset sample_parse good_chart_reply initial_world);
      reflexivity.
  - apply (generate_without_dataset sample_parse good_chart_reply reset_world);
      [vm_compute; reflexivity | vm_compute; discriminate].
Defined.

(** [generate_empty_x_axis] on the initial page. *)
Lemma generate_empty_x_axis_witness :
  emitted (generateChart sample_parse good_chart_reply) initial_world
  = [Notify "Please select X-axis column" "error"]
  /\ app (run (generateChart sample_parse good_chart_reply) initial_world) = initial_app.
Proof.
  pose proof (generate_empty_x_axis sample_parse good_chart_reply initial_world eq_refl)
    as (_ & Hnew & _ & _ & Happ & _).
  split; [exact Hnew | exact Happ].
Defined.

(** [upload_axis_defaults] for headers A, B, C and for the single header A. *)
Lemma upload_axis_defaults_witness :
  (Some (select_value (x_axis (dom loaded_world))) = Some "A"
   /\ Some (select_value (y_axis (dom loaded_world))) = Some "B")
  /\ select_value
       (x_axis (dom (run (handleFileUpload (Some sample_file) (Replied one_header_upload))
                         initial_world))) = "".
Proof.
  split.
  - apply (upload_axis_defaults sample_file sample_upload initial_world eq_refl).
    simpl. lia.
  - apply (upload_axis_defaults sample_file one_header_upload initial_world eq_refl).
    simpl. lia.
Defined.

(** [generate_invalid_payload] on a page that already shows a chart. *)
Lemma generate_invalid_payload_witness :
  currentChart (app (run (generateChart sample_parse bad_chart_reply) rendered_world))
  = currentChart (app rendered_world)
  /\ count is_error_notify (emitted (generateChart sample_parse bad_chart_reply) rendered_world)
     = 1%nat
  /\ count (is_release GenerateBtn)
       (emitted (generateChart sample_parse bad_chart_reply) rendered_world) = 1%nat.
Proof.
  assert (Hx : select_value (x_axis (dom rendered_world)) ≠ "")
    by (vm_compute; discriminate).
  pose proof (generate_invalid_payload sample_parse (mkChartResult true "{data:" None)
                rendered_world "Unexpected token" Hx eq_refl eq_refl)
    as (_ & Happ & _ & Herr & Hrel & _).
  split; [exact (f_equal currentChart Happ) | split; [exact Herr | exact Hrel]].
Defined.

(** [export_chart_other_format] for the format svg, with a chart stored. *)
Lemma export_chart_other_format_witness :
  exportChart "svg" rendered_world = (inr tt, rendered_world).
Proof.
  apply (export_chart_other_format "svg" rendered_world);
    [vm_compute; reflexivity | discriminate].
Defined.

(** * Further properties of the methods *)

(** ** Reset *)

(** [resetApp], from any world: the three fields are null again, the six
    panels are hidden and the welcome screen is shown, the file input is
    emptied, nothing leaves the program; the buttons, the texts and the
    axis selectors, with their selection, are not touched. *)
Theorem reset_returns_to_empty (w : World) :
  let w' := run resetApp w in
  fst (resetApp w) = inr tt
  /\ app w' = initial_app
  /\ emitted resetApp w = []
  /\ (forall id, id ∈ panels -> id ∈ hidden (dom w'))
  /\ ("welcome-screen" ∉ hidden (dom w'))
  /\ get_value "file-input" (dom w') = ""
  /\ browse_btn (dom w') = browse_btn (dom w)
  /\ generate_btn (dom w') = generate_btn (dom w)
  /\ x_axis (dom w') = x_axis (dom w)
  /\ y_axis (dom w') = y_axis (dom w)
  /\ texts (dom w') = texts (dom w).
Proof.
  unfold emitted, run, resetApp, get_value, panels. cbn.
  rewrite drop_all, lookup_insert_eq. repeat split; [|set_solver].
  intros id Hid. set_unfold. naive_solver.
Qed.

(** A second [resetApp] changes nothing. *)
Theorem reset_idempotent (w : World) :
  run resetApp (run resetApp w) = run resetApp w.
Proof.
  unfold run, resetApp, set_value, hide, unhide. cbn.
  rewrite insert_insert_eq. do 2 f_equal. set_solver.
Qed.

(** ** Export *)

(** [exportData] never changes the stored state or the page and always
    shows exactly one notification.  Without a dataset it stops locally;
    with one it sends one GET to the endpoint of the format, and a file
    named after the format is offered exactly when the response is ok and
    its body can be read. *)
Theorem export_data_outcomes (format : string) (reply : Exported) (w : World) :
  let w' := run (exportData format reply) w in
  let new := emitted (exportData format reply) w in
  let served := bool_decide (is_Some (currentData (app w))) && is_export_ok reply in
  fst (exportData format reply w) = inr tt
  /\ app w' = app w /\ dom w' = dom w
  /\ List.filter is_fetch new
     = match currentData (app w) with
       | Some _ => [Fetch ("/export_data/" +:+ format) "GET" NoBody]
       | None => []
       end
  /\ List.filter is_download new
     = (if served then [DownloadBlob ("autoviz_data." +:+ format)] else [])
  /\ List.filter is_notify new
     = [match currentData (app w) with
        | None => Notify "No data to export" "error"
        | Some _ =>
            if is_export_ok reply
            then Notify ("Data exported as " +:+ toUpperCase format) "success"
            else Notify (export_failure_message reply) "error"
        end].
Proof.
  unfold emitted, run, exportData, try_catch_finally. cbn.
  destruct (currentData (app w)) as [data|]; [destruct reply|]; cbn; close_logs.
Qed.

(** With a chart stored, [exportChart("png")] asks the plotting library for
    one 1200 x 800 image of the chart, named after the chart title, or
    [chart] when the title is empty, and reports it; the stored state and
    the page stay as they are. *)
Theorem export_chart_png (w : World) :
  json_truthy (currentChart (app w)) = true ->
  let chart_title := get_value "chart-title" (dom w) in
  emitted (exportChart "png") w
  = [DownloadImage "plotly-chart" "png" 1200 800
       (if String.eqb chart_title "" then "chart" else chart_title);
     Notify "Chart exported as PNG" "success"]
  /\ app (run (exportChart "png") w) = app w
  /\ dom (run (exportChart "png") w) = dom w.
Proof.
  intros Hchart chart_title. subst chart_title.
  unfold emitted, run, exportChart, string_truthy. cbn. rewrite Hchart. cbn.
  destruct (String.eqb (get_value "chart-title" (dom w)) ""); cbn; close_logs.
Qed.

(** After [resetApp], from any world, both exports stop locally: one error
    notification each, no request and no download. *)
Theorem reset_then_exports_fail (format : string) (reply : Exported) (w : World) :
  emitted (exportData format reply) (run resetApp w)
  = [Notify "No data to export" "error"]
  /\ emitted (exportChart format) (run resetApp w)
     = [Notify "No chart to export" "error"].
Proof.
  unfold emitted, run, exportData, exportChart, resetApp. cbn. close_logs.
Qed.

(** ** Upload, the other paths *)

(** When the upload is not accepted (the request or the decoding of the
    answer fails, or the service answers [success = false]), the stored
    state is what it was, the page too apart from the browse button, which
    is enabled again, and the one notification is an error carrying the
    service's message or the failure's. *)
Theorem upload_failure_keeps_state (f : File) (reply : Fetched UploadResult) (w : World) :
  upload_accepted reply = false ->
  let w' := run (handleFileUpload (Some f) reply) w in
  fst (handleFileUpload (Some f) reply w) = inr tt
  /\ app w' = app w
  /\ dom w' = set_button BrowseBtn (mkButton false "Browse") (dom w)
  /\ emitted (handleFileUpload (Some f) reply) w
     = [Fetch "/upload" "POST" (FormData f);
        Notify (upload_failure_message reply) "error";
        Release BrowseBtn].
Proof.
  intros Hrej.
  unfold emitted, run, handleFileUpload, showLoading, try_catch_finally, fetch_json.
  destruct reply as [e|e|r]; cbn in *; [| |rewrite Hrej; cbn];
    destruct w as [a d l]; cbn; close_logs.
Qed.

(** An accepted upload stores the rows and the headers of the answer,
    reveals the five data panels and hides the welcome screen, writes the
    file name and the statistics of the answer into the page, and emits the
    request, one success notification and the release, in that order. *)
Theorem upload_success_projection (f : File) (r : UploadResult) (w : World) :
  up_success r = true ->
  let w' := run (handleFileUpload (Some f) (Replied r)) w in
  fst (handleFileUpload (Some f) (Replied r) w) = inr tt
  /\ currentData (app w') = Some (up_data r)
  /\ currentHeaders (app w') = Some (up_headers r)
  /\ emitted (handleFileUpload (Some f) (Replied r)) w
     = [Fetch "/upload" "POST" (FormData f);
        Notify "File uploaded successfully!" "success";
        Release BrowseBtn]
  /\ (forall id,
        id ∈ ["file-info"; "chart-config"; "export-options"; "data-stats"; "data-preview"] ->
        id ∉ hidden (dom w'))
  /\ "welcome-screen" ∈ hidden (dom w')
  /\ get_text "file-name" (dom w') = file_name f
  /\ get_text "total-rows" (dom w') = pretty (up_total_rows r)
  /\ get_text "total-columns" (dom w') = pretty (length (up_headers r))
  /\ get_text "numeric-columns" (dom w')
     = pretty (count_columns "numeric" (up_column_info r))
  /\ get_text "categorical-columns" (dom w')
     = pretty (count_columns "categorical" (up_column_info r)).
Proof.
  intros Hs. upload_success Hs. unfold get_text. cbn.
  autorewrite with logs.
  repeat split; try (by simplify_map_eq); [|set_solver].
  intros id Hid. set_unfold. naive_solver.
Qed.

Lemma upload_success_selectors (f : File) (r : UploadResult) (w : World) :
  up_success r = true ->
  let d' := dom (run (handleFileUpload (Some f) (Replied r)) w) in
  x_axis d' = populated_select (up_headers r) 0
  /\ y_axis d' = populated_select (up_headers r) 1.
Proof. intros Hs. by upload_success Hs. Qed.

(** An accepted upload rebuilds both selectors from the headers of the
    answer alone: the placeholder, then one option per header, in order,
    with the header as text and as value.  No option of the page as it was
    is left. *)
Theorem upload_replaces_selector_options (f : File) (r : UploadResult) (w : World) :
  up_success r = true ->
  let d' := dom (run (handleFileUpload (Some f) (Replied r)) w) in
  options (x_axis d') = ("Select column...", "") :: header_options (up_headers r)
  /\ options (y_axis d') = ("Select column...", "") :: header_options (up_headers r)
  /\ length (options (x_axis d')) = S (length (up_headers r)).
Proof.
  intros Hs. upload_success Hs. unfold populated_select.
  destruct (2 <=? length (up_headers r))%nat; cbn;
    unfold header_options; by rewrite length_fmap.
Qed.

(** ** Column statistics *)

Lemma filter_disjoint_le {A} (p q : A -> bool) (l : list A) :
  (forall x, p x && q x = false) ->
  length (List.filter p l) + length (List.filter q l) <= length l.
Proof.
  intros Hpq. induction l as [|x l IH]; cbn; [lia|].
  specialize (Hpq x). destruct (p x), (q x); cbn in *; try discriminate; lia.
Qed.

Lemma filter_cover_eq {A} (p q : A -> bool) (l : list A) :
  (forall x, p x && q x = false) ->
  (forall x, x ∈ l -> p x || q x = true) ->
  length (List.filter p l) + length (List.filter q l) = length l.
Proof.
  intros Hpq Hcov. induction l as [|x l IH]; cbn; [done|].
  assert (IH' := IH (fun y Hy => Hcov y (list_elem_of_further _ _ _ Hy))).
  specialize (Hpq x). specialize (Hcov x (list_elem_of_here _ _)).
  destruct (p x), (q x); cbn in *; try discriminate; lia.
Qed.

Lemma kinds_disjoint (type : string) :
  String.eqb type "numeric" && String.eqb type "categorical" = false.
Proof.
  destruct (String.eqb type "numeric") eqn:E; [|done].
  by apply String.eqb_eq in E as ->.
Qed.

(** The numeric and the categorical count never add up to more than the
    number of columns [column_info] describes; a column of any other type is
    in neither count. *)
Theorem column_counts_bounded (column_info : gmap string string) :
  count_columns "numeric" column_info + count_columns "categorical" column_info
  <= size column_info.
Proof.
  unfold count_columns.
  rewrite <- (length_map_to_list column_info),
          <- (length_fmap snd (map_to_list column_info)).
  apply filter_disjoint_le, kinds_disjoint.
Qed.

(** When every described column is numeric or categorical, the two counts
    add up to the number of described columns. *)
Theorem column_counts_partition (column_info : gmap string string) :
  (forall h type, column_info !! h = Some type ->
     type = "numeric" \/ type = "categorical") ->
  count_columns "numeric" column_info + count_columns "categorical" column_info
  = size column_info.
Proof.
  intros Hkinds. unfold count_columns.
  rewrite <- (length_map_to_list column_info),
          <- (length_fmap snd (map_to_list column_info)).
  apply filter_cover_eq; [apply kinds_disjoint|].
  intros type Hin. apply list_elem_of_fmap in Hin as ([h t] & -> & Hin).
  apply elem_of_map_to_list in Hin. cbn.
  destruct (Hkinds h t Hin) as [-> | ->]; reflexivity.
Qed.

(** ** Chart generation, the other paths *)

Section GenerateOutcomes.

Variable JSON_parse : string -> string + json.

#[local] Arguments string_truthy : simpl never.
#[local] Arguments select_value : simpl never.

Ltac generate_started Hx :=
  unfold emitted, run, generateChart, showLoading, try_catch_finally, fetch_json;
  cbn; rewrite Hx; cbn.

(** An accepted reply whose payload parses to a value other than [null]:
    that value becomes the stored chart, dataset and headers stay, the
    plotting library gets the [data] and [layout] of the value, the chart
    container is revealed, the welcome screen hidden, and the events are the
    request, the plot, one success notification and the release. *)
Theorem generate_success_renders (r : ChartResult) (chart : json) (w : World) :
  select_value (x_axis (dom w)) ≠ "" ->
  ch_success r = true ->
  JSON_parse (ch_chart r) = inr chart ->
  chart ≠ JNull ->
  let w' := run (generateChart JSON_parse (Replied r)) w in
  fst (generateChart JSON_parse (Replied r) w) = inr tt
  /\ app w' = mkApp (currentData (app w)) (currentHeaders (app w)) chart
  /\ emitted (generateChart JSON_parse (Replied r)) w
     = [Fetch "/generate_chart" "POST" (JsonBody (page_config (dom w)));
        NewPlot "plotly-chart" (chart_prop chart "data") (chart_prop chart "layout");
        Notify "Chart generated successfully!" "success";
        Release GenerateBtn]
  /\ ("chart-container" ∉ hidden (dom w'))
  /\ "welcome-screen" ∈ hidden (dom w').
Proof.
  intros Hx Hs Hp Hchart. apply string_truthy_true in Hx.
  generate_started Hx. rewrite Hs. cbn. rewrite Hp. cbn.
  destruct chart; try done; cbn; autorewrite with logs;
    (repeat split; [set_solver | set_solver]).
Qed.

(** An accepted reply whose payload parses to [null]: the stored chart is
    overwritten with [null] before the failure shows, so a chart stored
    earlier is lost; nothing is plotted, the panels stay as they were, and
    the one notification is the error of reading [data] off [null]. *)
Theorem generate_null_payload_clears_chart (r : ChartResult) (w : World) :
  select_value (x_axis (dom w)) ≠ "" ->
  ch_success r = true ->
  JSON_parse (ch_chart r) = inr JNull ->
  let w' := run (generateChart JSON_parse (Replied r)) w in
  let new := emitted (generateChart JSON_parse (Replied r)) w in
  fst (generateChart JSON_parse (Replied r) w) = inr tt
  /\ currentChart (app w') = JNull
  /\ currentData (app w') = currentData (app w)
  /\ currentHeaders (app w') = currentHeaders (app w)
  /\ count is_plot new = 0%nat
  /\ List.filter is_notify new
     = [Notify "Chart generation failed: Cannot read properties of null (reading 'data')"
          "error"]
  /\ count (is_release GenerateBtn) new = 1%nat
  /\ hidden (dom w') = hidden (dom w).
Proof.
  intros Hx Hs Hp. apply string_truthy_true in Hx.
  generate_started Hx. rewrite Hs. cbn. rewrite Hp. cbn. close_logs.
Qed.

(** When the reply is not accepted (the request or the decoding fails, or
    the service answers [success = false]), the stored state is what it was,
    the page too apart from the generate button, nothing is plotted, and the
    one notification is an error with the service's message or the
    failure's. *)
Theorem generate_failure_keeps_state (reply : Fetched ChartResult) (w : World) :
  select_value (x_axis (dom w)) ≠ "" ->
  chart_accepted reply = false ->
  let w' := run (generateChart JSON_parse reply) w in
  fst (generateChart JSON_parse reply w) = inr tt
  /\ app w' = app w
  /\ dom w' = set_button GenerateBtn (mkButton false "Browse") (dom w)
  /\ emitted (generateChart JSON_parse reply) w
     = [Fetch "/generate_chart" "POST" (JsonBody (page_config (dom w)));
        Notify (chart_failure_message reply) "error";
        Release GenerateBtn].
Proof.
  intros Hx Hrej. apply string_truthy_true in Hx.
  destruct reply as [e|e|r]; cbn in Hrej; generate_started Hx;
    [| |rewrite Hrej; cbn]; destruct w as [a d l]; cbn; close_logs.
Qed.

(** Straight after an accepted upload, [generateChart] sends the first two
    headers as the axes when there are two headers or more and the first
    one is not the empty text; with fewer than two headers it stops at the
    X-axis check and no request is sent. *)
Theorem upload_then_generate (f : File) (r : UploadResult)
    (reply : Fetched ChartResult) (w : World) :
  up_success r = true ->
  let w1 := run (handleFileUpload (Some f) (Replied r)) w in
  let new := emitted (generateChart JSON_parse reply) w1 in
  (length (up_headers r) < 2 ->
     new = [Notify "Please select X-axis column" "error"])
  /\ (forall h0 h1 rest, up_headers r = h0 :: h1 :: rest -> h0 ≠ "" ->
        exists config,
          List.filter is_fetch new = [Fetch "/generate_chart" "POST" (JsonBody config)]
          /\ cfg_x_axis config = h0 /\ cfg_y_axis config = h1).
Proof.
  intros Hs w1 new.
  destruct (upload_success_selectors f r w Hs) as [Hxsel Hysel].
  fold w1 in Hxsel, Hysel. split.
  - intros Hlen.
    assert (Hx : select_value (x_axis (dom w1)) = "").
    { rewrite Hxsel. by apply populated_select_placeholder. }
    subst new. unfold emitted, run.
    rewrite (generateChart_empty_x JSON_parse reply w1 Hx). cbn. close_logs.
  - intros h0 h1 rest Hh Hne.
    assert (Hx : select_value (x_axis (dom w1)) = h0).
    { rewrite Hxsel. apply populated_select_default; rewrite Hh; cbn; [lia|done]. }
    assert (Hy : select_value (y_axis (dom w1)) = h1).
    { rewrite Hysel. apply populated_select_default; rewrite Hh; cbn; [lia|done]. }
    exists (page_config (dom w1)). split; [|by cbn].
    apply generateChart_fetches. by rewrite Hx.
Qed.

End GenerateOutcomes.

(** ** Invariants of the actions *)

Section Invariants.

Variable JSON_parse : string -> string + json.

#[local] Arguments string_truthy : simpl never.
#[local] Arguments select_value : simpl never.

Ltac close_step :=
  cbn; autorewrite with logs; cbn;
  repeat split; try lia; try done;
  try (unfold paired, buttons_enabled; cbn;
       repeat match goal with b : bool |- _ => destruct b end; done).

(** What one action does to the quantities the invariants below are about. *)
Lemma dispatch_step (act : Action) (w : World) :
  let w' := run (dispatch JSON_parse act) w in
  let new := emitted (dispatch JSON_parse act) w in
  fst (dispatch JSON_parse act w) = inr tt
  /\ count is_fetch new <= 1
  /\ count is_notify new <= 1
  /\ (may_set_chart act = false -> currentChart (app w) = JNull ->
        currentChart (app w') = JNull)
  /\ (paired (app w) = true -> paired (app w') = true)
  /\ (buttons_enabled (dom w) = true -> buttons_enabled (dom w') = true).
Proof.
  destruct w as [[data headers chart] [[db tb] [dg tg] xs ys v t h] l].
  destruct act as [file reply|file reply| |reply| |reply|reply];
    unfold emitted, run, dispatch.
  - destruct file as [f|]; [|close_step].
    unfold handleFileUpload, showLoading, try_catch_finally, fetch_json.
    destruct reply as [e|e|r]; [close_step|close_step|].
    cbn. destruct (up_success r) eqn:Hs; cbn; [|close_step].
    rewrite (bind_ok _ _ _ _ _ (populateColumnSelectors_run _ _ _)). close_step.
  - destruct file as [f|]; [|close_step].
    unfold handleFileUpload, showLoading, try_catch_finally, fetch_json.
    destruct reply as [e|e|r]; [close_step|close_step|].
    cbn. destruct (up_success r) eqn:Hs; cbn; [|close_step].
    rewrite (bind_ok _ _ _ _ _ (populateColumnSelectors_run _ _ _)). close_step.
  - unfold resetApp. close_step.
  - unfold generateChart, showLoading, try_catch_finally, fetch_json. cbn.
    destruct (string_truthy (select_value xs)); cbn; [|close_step].
    destruct reply as [e|e|r]; [close_step|close_step|].
    cbn. destruct (ch_success r) eqn:Hs; cbn; [|close_step].
    destruct (JSON_parse (ch_chart r)) as [e|parsed]; cbn; [close_step|].
    destruct parsed; close_step.
  - unfold exportChart. cbn. destruct (json_truthy chart); close_step.
  - unfold exportData, try_catch_finally. cbn.
    destruct data; [destruct reply|]; close_step.
  - unfold exportData, try_catch_finally. cbn.
    destruct data; [destruct reply|]; close_step.
Qed.

Lemma dispatch_all_cons (act : Action) (rest : list Action) (w : World) :
  dispatch_all JSON_parse (act :: rest) w
  = dispatch_all JSON_parse rest (run (dispatch JSON_parse act) w).
Proof. reflexivity. Qed.

(** No action lets a failure escape: whatever the page, the stored state and
    the answer of the service, the method an action starts returns normally;
    each throw inside it is caught by its own [catch]. *)
Theorem every_action_returns_normally (act : Action) (w : World) :
  fst (dispatch JSON_parse act w) = inr tt.
Proof. apply (dispatch_step act w). Qed.

(** One action sends at most one request and shows at most one
    notification. *)
Theorem action_effect_bounds (act : Action) (w : World) :
  count is_fetch (emitted (dispatch JSON_parse act) w) <= 1
  /\ count is_notify (emitted (dispatch JSON_parse act) w) <= 1.
Proof.
  destruct (dispatch_step act w) as (_ & Hf & Hn & _). by split.
Qed.

(** The stored chart stays null through every sequence of actions in which
    no chart reply is accepted; [exportChart] then still stops with its
    error, without a download. *)
Theorem chart_null_until_accepted (acts : list Action) (format : string) (w : World) :
  currentChart (app w) = JNull ->
  forallb (fun act => negb (may_set_chart act)) acts = true ->
  let w' := run (dispatch_all JSON_parse acts) w in
  currentChart (app w') = JNull
  /\ emitted (exportChart format) w' = [Notify "No chart to export" "error"].
Proof.
  intros Hnull Hacts w'.
  assert (Hchart : currentChart (app w') = JNull).
  { subst w'. revert w Hnull. induction acts as [|act rest IH]; intros w Hnull; [done|].
    cbn in Hacts. apply andb_true_iff in Hacts as [Hact Hrest].
    apply negb_true_iff in Hact.
    unfold run. rewrite dispatch_all_cons. apply (IH Hrest).
    by apply (dispatch_step act w). }
  split; [done|].
  unfold emitted, run, exportChart. cbn. rewrite Hchart. cbn. close_logs.
Qed.

(** The rows and the headers are stored together and dropped together:
    through every sequence of actions both are null or both are set. *)
Theorem data_headers_paired (acts : list Action) (w : World) :
  paired (app w) = true ->
  paired (app (run (dispatch_all JSON_parse acts) w)) = true.
Proof.
  revert w. induction acts as [|act rest IH]; intros w Hp; [done|].
  unfold run. rewrite dispatch_all_cons. apply IH. by apply (dispatch_step act w).
Qed.

(** No control is left disabled: if both buttons are enabled before a
    sequence of actions, both are enabled after it, on every outcome. *)
Theorem buttons_stay_enabled (acts : list Action) (w : World) :
  buttons_enabled (dom w) = true ->
  buttons_enabled (dom (run (dispatch_all JSON_parse acts) w)) = true.
Proof.
  revert w. induction acts as [|act rest IH]; intros w Hb; [done|].
  unfold run. rewrite dispatch_all_cons. apply IH. by apply (dispatch_step act w).
Qed.

End Invariants.

(** ** The further properties at concrete inputs *)

(** [export_chart_png] with the chart of [rendered_world], whose title field
    is empty. *)
Lemma export_chart_png_witness :
  emitted (exportChart "png") rendered_world
  = [DownloadImage "plotly-chart" "png" 1200 800 "chart";
     Notify "Chart exported as PNG" "success"].
Proof.
  apply (export_chart_png rendered_world). vm_compute. reflexivity.
Defined.

(** [upload_failure_keeps_state] when the request itself fails. *)
Lemma upload_failure_keeps_state_witness :
  app (run (handleFileUpload (Some second_file) (FetchRejects "Failed to fetch"))
           loaded_world)
  = app loaded_world.
Proof.
  apply (upload_failure_keeps_state second_file (FetchRejects "Failed to fetch")
           loaded_world).
  reflexivity.
Defined.

(** [upload_success_projection] for the first upload. *)
Lemma upload_success_projection_witness :
  currentHeaders (app loaded_world) = Some ["A"; "B"; "C"]
  /\ get_text "total-columns" (dom loaded_world) = pretty 3%nat.
Proof.
  pose proof (upload_success_projection sample_file sample_upload initial_world eq_refl)
    as (_ & _ & Hh & _ & _ & _ & _ & _ & Hc & _).
  split; [exact Hh | exact Hc].
Defined.

(** [upload_replaces_selector_options] for a second upload: the options A,
    B, C of the first one are gone. *)
Lemma upload_replaces_selector_options_witness :
  options (x_axis (dom (run (handleFileUpload (Some second_file) (Replied second_upload))
                            loaded_world)))
  = [("Select column...", ""); ("P", "P"); ("Q", "Q")].
Proof.
  apply (upload_replaces_selector_options second_file second_upload loaded_world).
  reflexivity.
Defined.

(** [column_counts_partition] for two numeric columns and a categorical one. *)
Lemma column_counts_partition_witness :
  count_columns "numeric" (up_column_info sample_upload)
  + count_columns "categorical" (up_column_info sample_upload)
  = size (up_column_info sample_upload).
Proof.
  apply (column_counts_partition (up_column_info sample_upload)).
  intros h type H. unfold sample_upload, up_column_info in H.
  repeat (apply lookup_insert_Some in H as [[_ <-]|[_ H]]; [auto|]).
  apply lookup_singleton_Some in H as [_ <-]. auto.
Defined.

(** [generate_releases_once] with an accepted reply. *)
Lemma generate_releases_once_witness :
  count (is_release GenerateBtn)
    (emitted (generateChart sample_parse good_chart_reply) loaded_world) = 1%nat.
Proof.
  apply (generate_releases_once sample_parse good_chart_reply loaded_world).
  vm_compute. discriminate.
Defined.

(** [generate_success_renders] for the payload that parses to an empty
    object. *)
Lemma generate_success_renders_witness :
  app rendered_world
  = mkApp (currentData (app loaded_world)) (currentHeaders (app loaded_world)) (JObj []).
Proof.
  apply (generate_success_renders sample_parse (mkChartResult true "{}" None) (JObj [])
           loaded_world);
    [vm_compute; discriminate | reflexivity | reflexivity | discriminate].
Defined.

(** [generate_null_payload_clears_chart] on a page that shows a chart. *)
Lemma generate_null_payload_clears_chart_witness :
  currentChart (app rendered_world) = JObj []
  /\ currentChart (app (run (generateChart sample_parse null_chart_reply) rendered_world))
     = JNull.
Proof.
  split; [vm_compute; reflexivity|].
  apply (generate_null_payload_clears_chart sample_parse (mkChartResult true "null" None)
           rendered_world);
    [vm_compute; discriminate | reflexivity | reflexivity].
Defined.

(** [generate_failure_keeps_state] when the service refuses. *)
Lemma generate_failure_keeps_state_witness :
  emitted (generateChart sample_parse plain_chart_reply) loaded_world
  = [Fetch "/generate_chart" "POST" (JsonBody (page_config (dom loaded_world)));
     Notify "No data uploaded" "error";
     Release GenerateBtn].
Proof.
  apply (generate_failure_keeps_state sample_parse plain_chart_reply loaded_world);
    [vm_compute; discriminate | reflexivity].
Defined.

(** [upload_then_generate] after an upload with the single header A. *)
Lemma upload_then_generate_witness :
  emitted (generateChart sample_parse good_chart_reply)
    (run (handleFileUpload (Some sample_file) (Replied one_header_upload)) initial_world)
  = [Notify "Please select X-axis column" "error"].
Proof.
  apply (upload_then_generate sample_parse sample_file one_header_upload good_chart_reply
           initial_world eq_refl).
  simpl. lia.
Defined.

(** [chart_null_until_accepted]: an upload, a refused generation and a
    reset, then an export. *)
Lemma chart_null_until_accepted_witness :
  emitted (exportChart "png")
    (run (dispatch_all sample_parse
            [FileChosen (Some sample_file) (Replied sample_upload);
             GenerateChart plain_chart_reply; RemoveFile])
         initial_world)
  = [Notify "No chart to export" "error"].
Proof.
  apply (chart_null_until_accepted sample_parse
           [FileChosen (Some sample_file) (Replied sample_upload);
            GenerateChart plain_chart_reply; RemoveFile] "png" initial_world);
    reflexivity.
Defined.

(** [data_headers_paired] and [buttons_stay_enabled] over an upload, a
    failed upload and an export. *)
Lemma data_headers_paired_witness :
  paired (app (run (dispatch_all sample_parse
                      [FileChosen (Some sample_file) (Replied sample_upload);
                       FileDropped (Some second_file) (JsonRejects "Unexpected token");
                       ExportCsv ExportOk])
                   initial_world)) = true.
Proof.
  apply (data_headers_paired sample_parse). reflexivity.
Defined.

Lemma buttons_stay_enabled_witness :
  buttons_enabled (dom (run (dispatch_all sample_parse
                      [FileChosen (Some sample_file) (Replied sample_upload);
                       FileDropped (Some second_file) (JsonRejects "Unexpected token");
                       GenerateChart bad_chart_reply])
                   initial_world)) = true.
Proof.
  apply (buttons_stay_enabled sample_parse). reflexivity.
Defined.

(** ** The upload area *)

(** Leaving the area or dropping on it removes the highlight whatever the
    class list was, and after any number of [dragover] events one
    [dragleave] gives back the class list the area had before the drag, as
    long as that list held neither highlight class. *)
Theorem drag_highlight_round_trip (classes : ClassList) (n : nat)
    (file : option File) (reply : Fetched UploadResult) :
  on_dragleave classes ## highlight
  /\ (on_drop classes file reply).1 ## highlight
  /\ on_dragover (on_dragover classes) = on_dragover classes
  /\ (classes ## highlight ->
        on_dragleave (Nat.iter (S n) on_dragover classes) = classes
        /\ (on_drop (Nat.iter (S n) on_dragover classes) file reply).1 = classes).
Proof.
  assert (Hiter : forall k, Nat.iter (S k) on_dragover classes = on_dragover classes).
  { induction k as [|k IH]; [done|].
    change (Nat.iter (S (S k)) on_dragover classes)
      with (on_dragover (Nat.iter (S k) on_dragover classes)).
    rewrite IH. unfold on_dragover. set_solver. }
  unfold on_drop. cbn [fst]. rewrite Hiter.
  unfold on_dragleave, on_dragover. set_solver.
Qed.

(** [drag_highlight_round_trip] for an area with two layout classes, after
    three [dragover] events. *)
Lemma drag_highlight_round_trip_witness :
  on_dragleave (Nat.iter 3 on_dragover {[ "border-2"; "border-dashed" ]})
  = {[ "border-2"; "border-dashed" ]}.
Proof.
  apply (drag_highlight_round_trip {[ "border-2"; "border-dashed" ]} 2 None
           (FetchRejects "")).
  unfold highlight. set_solver.
Defined.

(** * The preview, read back from the page *)

(** ** Strings *)









(** ** The markup of a row *)

















(** ** The preview rows *)




(** ** The preview cells *)


